(** * Espaço Nave: dashboard aggregator and member inbox

    A shallow embedding of the two screens of the repository,
    [src/pages/admin/Dashboard.tsx] and [src/pages/member/Messages.tsx],
    and the properties of their state handling.

    Both screens are React components whose handlers are JavaScript
    [async] functions.  An [async] function runs synchronously up to its
    first [await], parks its continuation until the awaited promise
    settles, and is resumed with the promise's outcome; a call that is
    not awaited ([fetchMessages()] inside a handler) starts the callee
    and goes on.  Module [Async] gives that semantics once, for any
    component state, request type and response type; the two screens
    instantiate it. *)

From Stdlib Require Import List String Bool Arith Lia.
Import ListNotations.
Local Open Scope string_scope.
Local Open Scope list_scope.

(* ================================================================== *)
(** ** Asynchronous tasks *)
(* ================================================================== *)

Module Async.

(** What a rejected promise or a [throw] carries.  Every handler of the
    two screens only logs it, so its message is all that is kept. *)
Definition Error := string.

(** The outcome of a promise. *)
Inductive Settled (A : Type) : Type :=
| Fulfilled (a : A)
| Rejected (e : Error).

Arguments Fulfilled {A} a.
Arguments Rejected {A} e.

Definition is_rejected {A} (o : Settled A) : bool :=
  match o with
  | Fulfilled _ => false
  | Rejected _ => true
  end.

(** [Promise.all]: fulfilled with every value, in the order of the
    array, when every member is fulfilled; rejected as soon as one member
    is.  JavaScript rejects with the reason of the member that rejected
    first in time; the reason chosen here is that of the first rejected
    member of the array, which differs only in the message logged. *)
Fixpoint promise_all {A} (ps : list (Settled A)) : Settled (list A) :=
  match ps with
  | [] => Fulfilled []
  | Rejected e :: _ => Rejected e
  | Fulfilled a :: ps' =>
      match promise_all ps' with
      | Fulfilled l => Fulfilled (a :: l)
      | Rejected e => Rejected e
      end
  end.

Section Tasks.

Variables St Rq Rs : Type.

(** The body of an [async] function.  [Act f t] is a synchronous effect
    on the component and its surroundings, [Await r k] sends the request
    [r] and parks [k], [AwaitAll rs k] does so for [Promise.all] over
    [rs], [Spawn c t] calls the async function [c] without awaiting it,
    [Throw e] is an exception in flight. *)
Inductive Task : Type :=
| Fin
| Throw (e : Error)
| Act (f : St -> St) (t : Task)
| Await (r : Rq) (k : Settled Rs -> Task)
| AwaitAll (rs : list Rq) (k : Settled (list Rs) -> Task)
| Spawn (child : Task) (t : Task).

(** [await p]: the value of [p], or an exception when [p] rejects. *)
Definition await (r : Rq) (k : Rs -> Task) : Task :=
  Await r (fun o => match o with
                    | Fulfilled x => k x
                    | Rejected e => Throw e
                    end).

Definition await_all (rs : list Rq) (k : list Rs -> Task) : Task :=
  AwaitAll rs (fun o => match o with
                        | Fulfilled xs => k xs
                        | Rejected e => Throw e
                        end).

(** [try { t } catch (e) { h e }].  The rejection of a spawned child is
    not an exception of the block. *)
Fixpoint try_catch (t : Task) (h : Error -> Task) : Task :=
  match t with
  | Fin => Fin
  | Throw e => h e
  | Act f t' => Act f (try_catch t' h)
  | Await r k => Await r (fun o => try_catch (k o) h)
  | AwaitAll rs k => AwaitAll rs (fun o => try_catch (k o) h)
  | Spawn c t' => Spawn c (try_catch t' h)
  end.

(** Statement sequence [t1; t2]. *)
Fixpoint seq (t1 t2 : Task) : Task :=
  match t1 with
  | Fin => t2
  | Throw e => Throw e
  | Act f t' => Act f (seq t' t2)
  | Await r k => Await r (fun o => seq (k o) t2)
  | AwaitAll rs k => AwaitAll rs (fun o => seq (k o) t2)
  | Spawn c t' => Spawn c (seq t' t2)
  end.

(** [try { t } finally { c }]: [c] runs on both exits, and an exception
    of [t] goes on after it. *)
Fixpoint finally (t c : Task) : Task :=
  match t with
  | Fin => c
  | Throw e => seq c (Throw e)
  | Act f t' => Act f (finally t' c)
  | Await r k => Await r (fun o => finally (k o) c)
  | AwaitAll rs k => AwaitAll rs (fun o => finally (k o) c)
  | Spawn col t' => Spawn col (finally t' c)
  end.

(** A parked continuation with the request(s) it waits for. *)
Inductive Pending : Type :=
| PendOne (r : Rq) (k : Settled Rs -> Task)
| PendAll (rs : list Rq) (k : Settled (list Rs) -> Task).

(** The running system: the component's state, every request sent so
    far (oldest first), the parked continuations, and the exceptions no
    handler caught. *)
Record Sys : Type := MkSys {
  world : St;
  requests : list Rq;
  pending : list Pending;
  unhandled : list Error
}.

Definition boot (w : St) : Sys :=
  {| world := w; requests := []; pending := []; unhandled := [] |}.

Definition set_pending (ps : list Pending) (s : Sys) : Sys :=
  {| world := world s; requests := requests s; pending := ps;
     unhandled := unhandled s |}.

(** Run a task up to the point where it has finished or is parked. *)
Fixpoint exec (t : Task) (s : Sys) : Sys :=
  match t with
  | Fin => s
  | Throw e =>
      {| world := world s; requests := requests s; pending := pending s;
         unhandled := unhandled s ++ [e] |}
  | Act f t' =>
      exec t' {| world := f (world s); requests := requests s;
                 pending := pending s; unhandled := unhandled s |}
  | Await r k =>
      {| world := world s; requests := requests s ++ [r];
         pending := pending s ++ [PendOne r k]; unhandled := unhandled s |}
  | AwaitAll rs k =>
      {| world := world s; requests := requests s ++ rs;
         pending := pending s ++ [PendAll rs k]; unhandled := unhandled s |}
  | Spawn c t' => exec t' (exec c s)
  end.

(** What the network hands back: one outcome for an awaited request, one
    per member for a [Promise.all]. *)
Inductive Answer : Type :=
| One (o : Settled Rs)
| Many (os : list (Settled Rs)).

Definition resume (p : Pending) (a : Answer) (s : Sys) : option Sys :=
  match p, a with
  | PendOne _ k, One o => Some (exec (k o) s)
  | PendAll rs k, Many os =>
      if Nat.eqb (List.length os) (List.length rs)
      then Some (exec (k (promise_all os)) s)
      else None
  | _, _ => None
  end.

Fixpoint take_nth {A} (i : nat) (l : list A) : option (A * list A) :=
  match l, i with
  | [], _ => None
  | x :: l', O => Some (x, l')
  | x :: l', S i' =>
      match take_nth i' l' with
      | Some (y, rest) => Some (y, x :: rest)
      | None => None
      end
  end.

(** The [i]-th parked continuation is answered and resumed. *)
Definition deliver (i : nat) (a : Answer) (s : Sys) : option Sys :=
  match take_nth i (pending s) with
  | Some (p, rest) => resume p a (set_pending rest s)
  | None => None
  end.

End Tasks.

Arguments Fin {St Rq Rs}.
Arguments Throw {St Rq Rs} e.
Arguments Act {St Rq Rs} f t.
Arguments Await {St Rq Rs} r k.
Arguments AwaitAll {St Rq Rs} rs k.
Arguments Spawn {St Rq Rs} child t.
Arguments await {St Rq Rs} r k.
Arguments await_all {St Rq Rs} rs k.
Arguments try_catch {St Rq Rs} t h.
Arguments seq {St Rq Rs} t1 t2.
Arguments finally {St Rq Rs} t c.
Arguments PendOne {St Rq Rs} r k.
Arguments PendAll {St Rq Rs} rs k.
Arguments MkSys {St Rq Rs} world requests pending unhandled.
Arguments world {St Rq Rs} s.
Arguments requests {St Rq Rs} s.
Arguments pending {St Rq Rs} s.
Arguments unhandled {St Rq Rs} s.
Arguments boot {St Rq Rs} w.
Arguments set_pending {St Rq Rs} ps s.
Arguments exec {St Rq Rs} t s.
Arguments One {Rs} o.
Arguments Many {Rs} os.
Arguments resume {St Rq Rs} p a s.
Arguments deliver {St Rq Rs} i a s.

End Async.

Import Async.

(* ================================================================== *)
(** ** The dashboard aggregator ([Dashboard.tsx]) *)
(* ================================================================== *)

Module Dashboard.

(** A row of [recentProductions] or [upcomingBookings] ([any] in the
    source): its columns by name. *)
Definition Row := list (string * string).

Record DashboardData : Type := MkData {
  artistsCount : nat;
  bookingsCount : nat;
  productionsCount : nat;
  activeProductionsCount : nat;
  recentProductions : list Row;
  upcomingBookings : list Row
}.

(** The component's two state cells and the console it logs to. *)
Record State : Type := MkState {
  data : option DashboardData;
  isLoading : bool;
  console : list string
}.

Definition initial : State :=
  {| data := None; isLoading := true; console := [] |}.

Definition setData (d : option DashboardData) (w : State) : State :=
  {| data := d; isLoading := isLoading w; console := console w |}.

Definition setIsLoading (b : bool) (w : State) : State :=
  {| data := data w; isLoading := b; console := console w |}.

Definition console_error (msg : string) (w : State) : State :=
  {| data := data w; isLoading := isLoading w;
     console := console w ++ [msg] |}.

(** The six read queries of [fetchDashboardData], in the order of the
    array given to [Promise.all]. *)
Inductive Query : Type :=
| CountArtists
| CountBookings
| CountProductions
| CountActiveProductions
| RecentProductions
| UpcomingBookings (now : string).

(** What a query resolves to: the client's [{ data, error, count }]. *)
Record Result : Type := MkResult {
  count : option nat;
  rows : option (list Row);
  error : option Error
}.

(** [x.count || 0] and [x.data || []]. *)
Definition count_or_zero (r : Result) : nat :=
  match count r with
  | Some n => n
  | None => 0
  end.

Definition rows_or_empty (r : Result) : list Row :=
  match rows r with
  | Some l => l
  | None => []
  end.

Definition Task := Async.Task State Query Result.
Definition Sys := Async.Sys State Query Result.

Definition queries (now : string) : list Query :=
  [CountArtists; CountBookings; CountProductions; CountActiveProductions;
   RecentProductions; UpcomingBookings now].

(** [fetchDashboardData].  [now] is [new Date().toISOString()], read
    when the last query is built.  The array pattern binds the first six
    results; reading [.count] of a missing one is a [TypeError]. *)
Definition fetchDashboardData (now : string) : Task :=
  finally
    (try_catch
       (await_all (queries now) (fun results =>
          match results with
          | artistsResult :: bookingsResult :: productionsResult
              :: activeProductionsResult :: recentProductionsResult
              :: upcomingBookingsResult :: _ =>
              Act (setData (Some
                     {| artistsCount := count_or_zero artistsResult;
                        bookingsCount := count_or_zero bookingsResult;
                        productionsCount := count_or_zero productionsResult;
                        activeProductionsCount :=
                          count_or_zero activeProductionsResult;
                        recentProductions :=
                          rows_or_empty recentProductionsResult;
                        upcomingBookings :=
                          rows_or_empty upcomingBookingsResult |}))
                  Fin
          | _ => Throw "TypeError"
          end))
       (fun _ => Act (console_error "Error fetching dashboard data:") Fin))
    (Act (setIsLoading false) Fin).

(** What the component renders: the spinner while [isLoading], else the
    page, whose statistics appear only under [data && ...]. *)
Inductive View : Type :=
| Spinner
| Page (stats : option DashboardData).

Definition render (w : State) : View :=
  if isLoading w then Spinner else Page (data w).

(** Activation: the mount effect calls [fetchDashboardData()]. *)
Definition activate (now : string) : Sys :=
  exec (Spawn (fetchDashboardData now) Fin) (boot initial).

(** The six queries have settled with [os]. *)
Definition settle (os : list (Settled Result)) (s : Sys) : option Sys :=
  deliver 0 (Many os) s.

End Dashboard.

(* ================================================================== *)
(** ** The member inbox ([Messages.tsx]) *)
(* ================================================================== *)

Module Messages.

(** The signed-in user of [useAuth]; only [user.id] is read. *)
Module User.
Record t : Type := mk { id : string }.
End User.

Module AdminUser.
Record t : Type := mk { id : string; full_name : string }.
End AdminUser.

(** A row of [user_roles], selected on [user_id]. *)
Module UserRole.
Record t : Type := mk { user_id : string }.
End UserRole.

(** The compose form, [messageForm]. *)
Module Form.
Record t : Type := mk { subject : string; content : string }.
Definition empty : t := {| subject := ""; content := "" |}.
End Form.

(** The row handed to [insert]. *)
Module NewRow.
Record t : Type := mk {
  sender_id : string;
  recipient_id : option string;
  subject : string;
  content : string;
  is_admin_message : bool
}.
End NewRow.

(** [interface Message]; [recipient_id] is [string | null]. *)
Record Message : Type := MkMessage {
  id : string;
  subject : string;
  content : string;
  is_read : bool;
  is_admin_message : bool;
  created_at : string;
  sender_id : string;
  recipient_id : option string
}.

Inductive Toast : Type :=
| ToastError (msg : string)
| ToastSuccess (msg : string)
| ToastInfo (msg : string).

(** A realtime channel: the object [supabase.channel(...)] returns,
    told apart by the order of creation, with its topic and the user id
    of its [recipient_id=eq.] filter. *)
Record Channel : Type := MkChannel {
  channel_id : nat;
  topic : string;
  recipient : string
}.

(** The component's state cells, and around them what its handlers act
    on: the toasts shown, the console, the router and the realtime
    client's subscribed channels. *)
Record State : Type := MkState {
  messages : list Message;
  admins : list AdminUser.t;
  isLoading : bool;
  isSending : bool;
  newMessageOpen : bool;
  selectedMessage : option Message;
  messageForm : Form.t;
  toasts : list Toast;
  console : list string;
  navigated : list string;
  channels : list Channel;
  next_channel : nat
}.

(** [useState] initial values; [open_new] is [searchParams.get("new")
    === "true"]. *)
Definition initial (open_new : bool) : State :=
  {| messages := []; admins := []; isLoading := true; isSending := false;
     newMessageOpen := open_new; selectedMessage := None;
     messageForm := Form.empty; toasts := []; console := [];
     navigated := []; channels := []; next_channel := 0 |}.

(** [setMessages], in its updater form [setMessages((prev) => f prev)];
    [setMessages(v)] is [setMessages (fun _ => v)]. *)
Definition setMessages (f : list Message -> list Message) (w : State) : State :=
  {| messages := f (messages w); admins := admins w;
     isLoading := isLoading w; isSending := isSending w;
     newMessageOpen := newMessageOpen w;
     selectedMessage := selectedMessage w; messageForm := messageForm w;
     toasts := toasts w; console := console w; navigated := navigated w;
     channels := channels w; next_channel := next_channel w |}.

Definition setAdmins (l : list AdminUser.t) (w : State) : State :=
  {| messages := messages w; admins := l;
     isLoading := isLoading w; isSending := isSending w;
     newMessageOpen := newMessageOpen w;
     selectedMessage := selectedMessage w; messageForm := messageForm w;
     toasts := toasts w; console := console w; navigated := navigated w;
     channels := channels w; next_channel := next_channel w |}.

Definition setIsLoading (b : bool) (w : State) : State :=
  {| messages := messages w; admins := admins w;
     isLoading := b; isSending := isSending w;
     newMessageOpen := newMessageOpen w;
     selectedMessage := selectedMessage w; messageForm := messageForm w;
     toasts := toasts w; console := console w; navigated := navigated w;
     channels := channels w; next_channel := next_channel w |}.

Definition setIsSending (b : bool) (w : State) : State :=
  {| messages := messages w; admins := admins w;
     isLoading := isLoading w; isSending := b;
     newMessageOpen := newMessageOpen w;
     selectedMessage := selectedMessage w; messageForm := messageForm w;
     toasts := toasts w; console := console w; navigated := navigated w;
     channels := channels w; next_channel := next_channel w |}.

Definition setNewMessageOpen (b : bool) (w : State) : State :=
  {| messages := messages w; admins := admins w;
     isLoading := isLoading w; isSending := isSending w;
     newMessageOpen := b;
     selectedMessage := selectedMessage w; messageForm := messageForm w;
     toasts := toasts w; console := console w; navigated := navigated w;
     channels := channels w; next_channel := next_channel w |}.

Definition setSelectedMessage (m : option Message) (w : State) : State :=
  {| messages := messages w; admins := admins w;
     isLoading := isLoading w; isSending := isSending w;
     newMessageOpen := newMessageOpen w;
     selectedMessage := m; messageForm := messageForm w;
     toasts := toasts w; console := console w; navigated := navigated w;
     channels := channels w; next_channel := next_channel w |}.

Definition setMessageForm (f : Form.t) (w : State) : State :=
  {| messages := messages w; admins := admins w;
     isLoading := isLoading w; isSending := isSending w;
     newMessageOpen := newMessageOpen w;
     selectedMessage := selectedMessage w; messageForm := f;
     toasts := toasts w; console := console w; navigated := navigated w;
     channels := channels w; next_channel := next_channel w |}.

Definition toast (t : Toast) (w : State) : State :=
  {| messages := messages w; admins := admins w;
     isLoading := isLoading w; isSending := isSending w;
     newMessageOpen := newMessageOpen w;
     selectedMessage := selectedMessage w; messageForm := messageForm w;
     toasts := toasts w ++ [t]; console := console w;
     navigated := navigated w;
     channels := channels w; next_channel := next_channel w |}.

Definition console_error (msg : string) (w : State) : State :=
  {| messages := messages w; admins := admins w;
     isLoading := isLoading w; isSending := isSending w;
     newMessageOpen := newMessageOpen w;
     selectedMessage := selectedMessage w; messageForm := messageForm w;
     toasts := toasts w; console := console w ++ [msg];
     navigated := navigated w;
     channels := channels w; next_channel := next_channel w |}.

Definition navigate (path : string) (w : State) : State :=
  {| messages := messages w; admins := admins w;
     isLoading := isLoading w; isSending := isSending w;
     newMessageOpen := newMessageOpen w;
     selectedMessage := selectedMessage w; messageForm := messageForm w;
     toasts := toasts w; console := console w;
     navigated := navigated w ++ [path];
     channels := channels w; next_channel := next_channel w |}.

(** [supabase.channel(topic).on(..., filter, handler).subscribe()] and
    [supabase.removeChannel(channel)]. *)
Definition subscribe (topic : string) (uid : string) (w : State) : State :=
  {| messages := messages w; admins := admins w;
     isLoading := isLoading w; isSending := isSending w;
     newMessageOpen := newMessageOpen w;
     selectedMessage := selectedMessage w; messageForm := messageForm w;
     toasts := toasts w; console := console w; navigated := navigated w;
     channels := channels w ++
       [{| channel_id := next_channel w; topic := topic; recipient := uid |}];
     next_channel := S (next_channel w) |}.

Definition removeChannel (c : nat) (w : State) : State :=
  {| messages := messages w; admins := admins w;
     isLoading := isLoading w; isSending := isSending w;
     newMessageOpen := newMessageOpen w;
     selectedMessage := selectedMessage w; messageForm := messageForm w;
     toasts := toasts w; console := console w; navigated := navigated w;
     channels := filter (fun c' => negb (Nat.eqb (channel_id c') c)) (channels w);
     next_channel := next_channel w |}.

Definition subscribed (c : nat) (w : State) : bool :=
  existsb (fun c' => Nat.eqb (channel_id c') c) (channels w).

(** *** The backend client *)

Inductive Request : Type :=
| SelectMessages (uid : string)
| SelectAdminRoles
| SelectProfiles (ids : list string)
| InsertMessage (row : NewRow.t)
| UpdateIsRead (message_id : string).

(** The rows of a response, by table. *)
Inductive Rows : Type :=
| MessageRows (l : list Message)
| RoleRows (l : list UserRole.t)
| ProfileRows (l : list AdminUser.t).

(** The client's [{ data, error }]. *)
Record Response : Type := MkResponse {
  data : option Rows;
  error : option Error
}.

(** [data] read at the row type of the query that was sent.  A response
    with the rows of another table answers no query of this screen; it
    reads as no rows. *)
Definition message_rows (r : Response) : option (list Message) :=
  match data r with
  | Some (MessageRows l) => Some l
  | _ => None
  end.

Definition role_rows (r : Response) : option (list UserRole.t) :=
  match data r with
  | Some (RoleRows l) => Some l
  | _ => None
  end.

Definition profile_rows (r : Response) : option (list AdminUser.t) :=
  match data r with
  | Some (ProfileRows l) => Some l
  | _ => None
  end.

(** A call has failed when its promise rejects or its result carries an
    [error]. *)
Definition failed (o : Settled Response) : bool :=
  match o with
  | Rejected _ => true
  | Fulfilled r =>
      match error r with
      | Some _ => true
      | None => false
      end
  end.

(** [x || []]. *)
Definition or_empty {A} (x : option (list A)) : list A :=
  match x with
  | Some l => l
  | None => []
  end.

Definition Task := Async.Task State Request Response.
Definition Sys := Async.Sys State Request Response.

(** *** Operations *)

(** [fetchMessages], with the [user] of the render whose closure it is.
    The query is
    [from("messages").select("*").or(sender_id.eq.U,recipient_id.eq.U)
     .order("created_at", { ascending: false })]. *)
Definition fetchMessages (user : option User.t) : Task :=
  match user with
  | None => Fin
  | Some u =>
      finally
        (try_catch
           (await (SelectMessages (User.id u)) (fun r =>
              match error r with
              | Some e => Throw e
              | None =>
                  Act (setMessages (fun _ => or_empty (message_rows r))) Fin
              end))
           (fun _ => Act (console_error "Error fetching messages:") Fin))
        (Act (setIsLoading false) Fin)
  end.

(** [fetchAdmins]: the admin role rows, then, when there is one, the
    profiles of their users.  Neither [error] is read. *)
Definition fetchAdmins : Task :=
  try_catch
    (await SelectAdminRoles (fun r1 =>
       match role_rows r1 with
       | Some (r :: rest) =>
           let adminIds := map UserRole.user_id (r :: rest) in
           await (SelectProfiles adminIds) (fun r2 =>
             Act (setAdmins (or_empty (profile_rows r2))) Fin)
       | _ => Fin
       end))
    (fun _ => Act (console_error "Error fetching admins:") Fin).

(** The INSERT handler of the realtime channel. *)
Definition onInsert (newMessage : Message) (w : State) : State :=
  toast (ToastInfo "Nova mensagem recebida!")
        (setMessages (fun prev => newMessage :: prev) w).

(** [setupRealtime]: subscribes, and returns the function that removes
    the channel it has just made ([undefined] without a user). *)
Definition setupRealtime (user : option User.t) (w : State)
  : State * option (State -> State) :=
  match user with
  | None => (w, None)
  | Some u =>
      (subscribe "member-messages-page" (User.id u) w,
       Some (removeChannel (next_channel w)))
  end.

(** The body of the [useEffect] on [[user, authLoading]], and what it
    returns to React as its cleanup.  [setupRealtime()] is a statement
    there: its value is dropped, and the effect returns [undefined] on
    each of its paths. *)
Definition effect (authLoading : bool) (user : option User.t) (s : Sys)
  : Sys * option (State -> State) :=
  match user with
  | None =>
      if negb authLoading
      then (exec (Act (navigate "/login") Fin) s, None)
      else (s, None)
  | Some _ =>
      (exec (Spawn (fetchMessages user)
               (Spawn fetchAdmins
                  (Act (fun w => fst (setupRealtime user w)) Fin))) s,
       None)
  end.

(** React runs the cleanup an effect returned, if it returned one, when
    the component unmounts (and before the effect runs again). *)
Definition cleanup (c : option (State -> State)) (s : Sys) : Sys :=
  match c with
  | Some f => exec (Act f Fin) s
  | None => s
  end.

(** The screen is activated, then deactivated. *)
Definition activate (authLoading : bool) (user : option User.t) (s : Sys)
  : Sys * option (State -> State) :=
  effect authLoading user s.

Definition deactivate (mounted : Sys * option (State -> State)) : Sys :=
  cleanup (snd mounted) (fst mounted).

(** The realtime feed pushes an inserted row to every subscribed channel
    whose filter [recipient_id=eq.U] it matches. *)
Definition matches (c : Channel) (m : Message) : bool :=
  match recipient_id m with
  | Some r => String.eqb r (recipient c)
  | None => false
  end.

Definition push (m : Message) (w : State) : State :=
  fold_left (fun w' c => if matches c m then onInsert m w' else w')
            (channels w) w.

(** The same, as an event of the running system. *)
Definition realtime (m : Message) (s : Sys) : Sys :=
  exec (Act (push m) Fin) s.

(** [admins[0]?.id || null]: the empty string is falsy. *)
Definition first_admin_or_null (admins : list AdminUser.t) : option string :=
  match admins with
  | [] => None
  | a :: _ =>
      if String.eqb (AdminUser.id a) "" then None else Some (AdminUser.id a)
  end.

(** [!s] on a string. *)
Definition is_empty (s : string) : bool := String.eqb s "".

(** [handleSendMessage], with the [user], [messageForm] and [admins] of
    the render whose closure it is. *)
Definition handleSendMessage
  (user : option User.t) (form : Form.t) (admins : list AdminUser.t) : Task :=
  match user, is_empty (Form.subject form) || is_empty (Form.content form) with
  | Some u, false =>
        Act (setIsSending true)
          (finally
             (try_catch
                (await
                   (InsertMessage
                      {| NewRow.sender_id := User.id u;
                         NewRow.recipient_id := first_admin_or_null admins;
                         NewRow.subject := Form.subject form;
                         NewRow.content := Form.content form;
                         NewRow.is_admin_message := false |})
                   (fun r =>
                      match error r with
                      | Some e => Throw e
                      | None =>
                          Act (toast (ToastSuccess "Mensagem enviada!"))
                            (Act (setNewMessageOpen false)
                               (Act (setMessageForm Form.empty)
                                  (Spawn (fetchMessages user) Fin)))
                      end))
                (fun _ =>
                   Act (console_error "Error sending message:")
                     (Act (toast (ToastError "Erro ao enviar mensagem")) Fin)))
             (Act (setIsSending false) Fin))
  | _, _ => Act (toast (ToastError "Preencha todos os campos")) Fin
  end.

(** [message.recipient_id === user?.id]: [null] is never [===] to a
    string or to [undefined]. *)
Definition addressed_to (user : option User.t) (m : Message) : bool :=
  match recipient_id m, user with
  | Some r, Some u => String.eqb r (User.id u)
  | _, _ => false
  end.

(** [m.sender_id === user?.id]. *)
Definition sent_by (user : option User.t) (m : Message) : bool :=
  match user with
  | Some u => String.eqb (sender_id m) (User.id u)
  | None => false
  end.

(** [{ ...m, is_read: true }]. *)
Definition with_is_read (m : Message) : Message :=
  {| id := id m; subject := subject m; content := content m;
     is_read := true; is_admin_message := is_admin_message m;
     created_at := created_at m; sender_id := sender_id m;
     recipient_id := recipient_id m |}.

(** The updater of the mark-read patch:
    [prev.map((m) => (m.id === message.id ? { ...m, is_read: true } : m))]. *)
Definition mark_read (message_id : string) (prev : list Message)
  : list Message :=
  map (fun m => if String.eqb (id m) message_id then with_is_read m else m)
      prev.

(** [handleOpenMessage]. *)
Definition handleOpenMessage (user : option User.t) (message : Message)
  : Task :=
  Act (setSelectedMessage (Some message))
    (if negb (is_read message) && addressed_to user message
     then
       await (UpdateIsRead (id message)) (fun _ =>
         Act (setMessages (mark_read (id message))) Fin)
     else Fin).

(** The two derived lists of a render, and the unread badge. *)
Definition sentMessages (user : option User.t) (w : State) : list Message :=
  filter (sent_by user) (messages w).

Definition receivedMessages (user : option User.t) (w : State)
  : list Message :=
  filter (addressed_to user) (messages w).

Definition unread_badge (user : option User.t) (w : State) : nat :=
  List.length (filter (fun m => negb (is_read m)) (receivedMessages user w)).

(** The spinner is rendered while [authLoading || isLoading]. *)
Definition shows_spinner (authLoading : bool) (w : State) : bool :=
  authLoading || isLoading w.

(** *** Order of the list *)

(** Newest first by [created_at].  The column is a timestamp the backend
    serialises in ISO 8601 at a fixed offset, so the order of two values
    is the order of their strings. *)
Definition newer_or_same (a b : Message) : bool :=
  String.leb (created_at b) (created_at a).

Fixpoint sorted_desc (l : list Message) : bool :=
  match l with
  | [] => true
  | m :: l' =>
      match l' with
      | [] => true
      | m' :: _ => newer_or_same m m' && sorted_desc l'
      end
  end.

(** *** Handlers of the rendered page *)

(** The "Nova Mensagem" button, [onClick={() => setNewMessageOpen(true)}],
    and the detail dialog's [onOpenChange={() => setSelectedMessage(null)}]
    and [open={!!selectedMessage}]. *)
Definition openNewMessage (w : State) : State := setNewMessageOpen true w.

Definition closeMessage (w : State) : State := setSelectedMessage None w.

Definition detail_open (w : State) : bool :=
  match selectedMessage w with
  | Some _ => true
  | None => false
  end.






Definition click_message (user : option User.t) (m : Message) (s : Sys)
  : Sys :=
  exec (handleOpenMessage user m) s.

Definition close_detail (s : Sys) : Sys :=
  exec (Act closeMessage Fin) s.


(** An unread row addressed to the user: what the badge counts. *)
Definition counts_as_unread (user : option User.t) (m : Message) : bool :=
  addressed_to user m && negb (is_read m).

End Messages.

(* ================================================================== *)
(** ** Scenario data *)
(* ================================================================== *)

Module DashboardScenarios.

Import Dashboard.

(** A fulfilled query with a count and no rows, and a query whose
    promise rejects. *)
Definition counted (n : nat) : Settled Result :=
  Fulfilled {| count := Some n; rows := None; error := None |}.

Definition listed (l : list Row) : Settled Result :=
  Fulfilled {| count := None; rows := Some l; error := None |}.

(** The scenario of the specification: the "active productions" count
    rejects, the other five queries are fulfilled. *)
Definition active_count_rejects : list (Settled Result) :=
  [counted 3; counted 7; counted 4; Rejected "network"; listed []; listed []].

End DashboardScenarios.

Module MessagesScenarios.

Import Messages.

Definition alice : User.t := {| User.id := "alice" |}.

Definition root_admin : AdminUser.t :=
  {| AdminUser.id := "root"; AdminUser.full_name := "Root" |}.

(** Received by alice, unread. *)
Definition hello : Message :=
  {| id := "m1"; subject := "Bem-vinda"; content := "Oi";
     is_read := false; is_admin_message := true;
     created_at := "2026-03-01T10:00:00+00:00";
     sender_id := "root"; recipient_id := Some "alice" |}.

(** Sent by alice, later than [hello]. *)
Definition question : Message :=
  {| id := "m2"; subject := "Horário"; content := "Posso remarcar?";
     is_read := false; is_admin_message := false;
     created_at := "2026-03-02T09:30:00+00:00";
     sender_id := "alice"; recipient_id := Some "root" |}.

(** Sent by alice to herself. *)
Definition note_to_self : Message :=
  {| id := "m3"; subject := "Lembrete"; content := "Ligar";
     is_read := false; is_admin_message := false;
     created_at := "2026-03-03T08:00:00+00:00";
     sender_id := "alice"; recipient_id := Some "alice" |}.

Definition rows_ok (l : list Message) : Settled Response :=
  Fulfilled {| data := Some (MessageRows l); error := None |}.

Definition ready (l : list Message) : Sys :=
  boot (setIsLoading false (setMessages (fun _ => l) (initial false))).

(** The compose form of the specification's send scenario. *)
Definition reschedule : Form.t :=
  {| Form.subject := "Horário"; Form.content := "Posso remarcar?" |}.

End MessagesScenarios.

(* ================================================================== *)
(** ** Properties of the asynchronous layer *)
(* ================================================================== *)

Module AsyncFacts.

Lemma promise_all_rejected {A} (os : list (Settled A)) :
  existsb is_rejected os = true -> exists e, promise_all os = Rejected e.
Proof.
  induction os as [|o os IH]; simpl; [discriminate|].
  destruct o as [a|e]; simpl; intros H.
  - destruct (IH H) as [e He]. rewrite He. now exists e.
  - now exists e.
Qed.

Lemma promise_all_fulfilled {A} (os : list (Settled A)) :
  existsb is_rejected os = false ->
  exists xs, promise_all os = Fulfilled xs /\ map Fulfilled xs = os.
Proof.
  induction os as [|o os IH]; simpl; intros H.
  - now exists [].
  - destruct o as [a|e]; simpl in H; [|discriminate].
    destruct (IH H) as (xs & Hxs & Hmap). rewrite Hxs.
    exists (a :: xs). simpl. now rewrite Hmap.
Qed.

End AsyncFacts.

(* ================================================================== *)
(** ** Properties of the dashboard *)
(* ================================================================== *)

Module DashboardFacts.

Import Dashboard DashboardScenarios AsyncFacts.

(** While the queries are in flight the spinner shows. *)
Lemma activate_loading (now : string) :
  render (world (activate now)) = Spinner /\
  data (world (activate now)) = None /\
  requests (activate now) = queries now.
Proof. repeat split. Qed.

(** When every query is fulfilled the snapshot is published, with [0]
    and [[]] where a count or the rows are missing. *)
Lemma all_fulfilled_publishes (now : string) (a b c d e f : Result) :
  exists s',
    settle (map Fulfilled [a; b; c; d; e; f]) (activate now) = Some s' /\
    data (world s') =
      Some {| artistsCount := count_or_zero a;
              bookingsCount := count_or_zero b;
              productionsCount := count_or_zero c;
              activeProductionsCount := count_or_zero d;
              recentProductions := rows_or_empty e;
              upcomingBookings := rows_or_empty f |} /\
    isLoading (world s') = false.
Proof. eexists. repeat split. Qed.

(** A query that is fulfilled with an [error] in its result does not
    abort the snapshot: [fetchDashboardData] never reads [error]. *)
Example error_result_still_publishes :
  exists s',
    settle [counted 3; counted 7; counted 4;
            Fulfilled {| count := None; rows := None; error := Some "42501" |};
            listed []; listed []]
           (activate "2026-01-01T00:00:00.000Z") = Some s' /\
    data (world s') =
      Some {| artistsCount := 3; bookingsCount := 7; productionsCount := 4;
              activeProductionsCount := 0; recentProductions := [];
              upcomingBookings := [] |}.
Proof. eexists. split; reflexivity. Qed.

(** C1, as stated, fails on the scenario of the specification: once the
    "active productions" count has rejected no snapshot is published,
    but the loading flag is cleared and the view is no longer the
    spinner. *)
Lemma rejected_query_leaves_loading_state :
  exists s',
    settle active_count_rejects (activate "2026-01-01T00:00:00.000Z") = Some s' /\
    data (world s') = None /\
    isLoading (world s') = false /\
    render (world s') <> Spinner.
Proof. eexists. repeat split. discriminate. Qed.

(** C1 (amended): for every activation in which at least one of the six
    parallel read queries rejects, no snapshot is published (the
    view-model stays unset, all-or-nothing), the failure is logged, and
    the loading flag is cleared: the view leaves the loading state and
    renders the page without statistics, neither spinner nor partial
    display. *)
Theorem rejected_query_publishes_nothing :
  forall (now : string) (os : list (Settled Result)),
    List.length os = 6 ->
    existsb is_rejected os = true ->
    exists s',
      settle os (activate now) = Some s' /\
      data (world s') = None /\
      isLoading (world s') = false /\
      render (world s') = Page None /\
      console (world s') = ["Error fetching dashboard data:"] /\
      pending s' = [] /\
      unhandled s' = [].
Proof.
  intros now os Hlen Hrej.
  destruct (promise_all_rejected os Hrej) as [e He].
  unfold settle, deliver, activate. simpl.
  rewrite Hlen. simpl. rewrite He. simpl.
  eexists. repeat split.
Qed.

(** The theorem at the scenario in which the active count rejects. *)
Lemma rejected_query_publishes_nothing_witness :
  List.length active_count_rejects = 6 /\
  existsb is_rejected active_count_rejects = true /\
  exists s',
    settle active_count_rejects (activate "2026-01-01T00:00:00.000Z") = Some s' /\
    data (world s') = None /\
    isLoading (world s') = false /\
    render (world s') = Page None /\
    console (world s') = ["Error fetching dashboard data:"] /\
    pending s' = [] /\
    unhandled s' = [].
Proof.
  split; [reflexivity|]. split; [reflexivity|].
  apply (rejected_query_publishes_nothing
           "2026-01-01T00:00:00.000Z" active_count_rejects);
    reflexivity.
Defined.

End DashboardFacts.

(* ================================================================== *)
(** ** Properties of the inbox *)
(* ================================================================== *)

Module MessagesFacts.

Import Messages MessagesScenarios.

(** *** Channels *)

Lemma subscribed_app (c : nat) (w : State) (l : list Channel) (x : Channel) :
  channels w = l ++ [x] -> channel_id x = c -> subscribed c w = true.
Proof.
  intros Hw Hx. unfold subscribed. rewrite Hw, existsb_app. simpl.
  rewrite Hx, Nat.eqb_refl. now rewrite orb_true_r.
Qed.

(** [removeChannel] does release the channel it is given. *)
Lemma removeChannel_releases (c : nat) (w : State) :
  subscribed c (removeChannel c w) = false.
Proof.
  unfold subscribed, removeChannel. simpl.
  induction (channels w) as [|x l IH]; simpl; [reflexivity|].
  destruct (Nat.eqb (channel_id x) c) eqn:E; simpl; [exact IH|].
  now rewrite E.
Qed.

(** The function [setupRealtime] returns is the release of the channel
    it subscribed: run on any later state, it leaves that channel
    unsubscribed. *)
Lemma setupRealtime_returns_release (u : User.t) (w : State) :
  exists f,
    snd (setupRealtime (Some u) w) = Some f /\
    subscribed (next_channel w) (fst (setupRealtime (Some u) w)) = true /\
    forall w', subscribed (next_channel w) (f w') = false.
Proof.
  eexists. split; [reflexivity|]. split.
  - simpl. now apply subscribed_app with (l := channels w)
      (x := {| channel_id := next_channel w; topic := "member-messages-page";
               recipient := User.id u |}).
  - intros w'. apply removeChannel_releases.
Qed.

(** C2 on the code: the effect drops what [setupRealtime] returns and
    hands React no cleanup, so for every signed-in user the channel
    subscribed on activation is still subscribed after the screen has
    been deactivated. *)
Theorem subscription_outlives_screen :
  forall (u : User.t) (authLoading : bool) (s : Sys),
    let c := next_channel (world s) in
    let mounted := activate authLoading (Some u) s in
    snd mounted = None /\
    subscribed c (world (fst mounted)) = true /\
    subscribed c (world (deactivate mounted)) = true.
Proof.
  intros u authLoading s c mounted.
  assert (H : subscribed c (world (fst mounted)) = true).
  { subst c mounted. simpl.
    now apply subscribed_app with (l := channels (world s))
      (x := {| channel_id := next_channel (world s);
               topic := "member-messages-page";
               recipient := User.id u |}). }
  repeat split; [exact H | exact H].
Qed.

(** After deactivation the handler of the leaked channel still runs on
    a pushed row. *)
Example push_after_deactivation :
  messages (world (realtime hello
     (deactivate (activate false (Some alice) (boot (initial false))))))
  = [hello].
Proof. reflexivity. Qed.


(** *** Opening a message *)

Lemma addressed_to_iff (user : option User.t) (m : Message) :
  addressed_to user m = true <->
  exists u, user = Some u /\ recipient_id m = Some (User.id u).
Proof.
  unfold addressed_to. split.
  - destruct (recipient_id m) as [r|], user as [u|]; try discriminate.
    intros H. apply String.eqb_eq in H. subst r. now exists u.
  - intros (u & -> & ->). apply String.eqb_refl.
Qed.

Lemma sent_by_iff (user : option User.t) (m : Message) :
  sent_by user m = true <->
  exists u, user = Some u /\ sender_id m = User.id u.
Proof.
  unfold sent_by. split.
  - destruct user as [u|]; [|discriminate].
    intros H. apply String.eqb_eq in H. now exists u.
  - intros (u & -> & ->). apply String.eqb_refl.
Qed.

Lemma app_one_neq {A} (l : list A) (x : A) : l ++ [x] <> l.
Proof.
  intros H. apply (f_equal (@List.length A)) in H.
  rewrite length_app in H. simpl in H. lia.
Qed.

(** C3, as stated, fails: with the update sent and not yet returned the
    local entry is still unread, and when the awaited call rejects the
    patch is never applied. *)
Lemma patch_waits_for_update :
  let s1 := exec (handleOpenMessage (Some alice) hello) (ready [hello]) in
  requests s1 = [UpdateIsRead "m1"] /\
  map is_read (messages (world s1)) = [false] /\
  option_map (fun s2 => map is_read (messages (world s2)))
             (deliver 0 (One (Rejected "network")) s1) = Some [false].
Proof. repeat split. Qed.

(** C3 (amended): for every message that is unread and whose recipientId
    equals the current user, opening it issues an update setting
    isRead = true and parks; the local list is untouched while the call
    is in flight.  Once the call has resolved, whatever its result (an
    error result included, no rollback), the entries with the message's
    id are patched to isRead = true; if the awaited call rejects, the
    patch is not applied. *)
Theorem open_unread_patches_after_update :
  forall (u : User.t) (m : Message) (s : Sys),
    is_read m = false ->
    recipient_id m = Some (User.id u) ->
    let s1 := exec (handleOpenMessage (Some u) m) s in
    requests s1 = requests s ++ [UpdateIsRead (id m)] /\
    messages (world s1) = messages (world s) /\
    selectedMessage (world s1) = Some m /\
    exists k,
      pending s1 = pending s ++ [PendOne (UpdateIsRead (id m)) k] /\
      (forall (r : Response) (s' : Sys),
          let s2 := exec (k (Fulfilled r)) s' in
          messages (world s2) = mark_read (id m) (messages (world s')) /\
          requests s2 = requests s' /\
          pending s2 = pending s' /\
          unhandled s2 = unhandled s') /\
      (forall (e : Error) (s' : Sys),
          let s2 := exec (k (Rejected e)) s' in
          world s2 = world s' /\
          unhandled s2 = unhandled s' ++ [e]).
Proof.
  intros u m s Hread Hrcpt. unfold handleOpenMessage.
  assert (Ha : addressed_to (Some u) m = true)
    by (apply addressed_to_iff; now exists u).
  rewrite Hread, Ha. simpl.
  repeat split. eexists. repeat split.
Qed.

(** The theorem at alice opening [hello]. *)
Lemma open_unread_patches_after_update_witness :
  is_read hello = false /\
  recipient_id hello = Some (User.id alice) /\
  let s := ready [hello] in
  let s1 := exec (handleOpenMessage (Some alice) hello) s in
  requests s1 = requests s ++ [UpdateIsRead (id hello)] /\
  messages (world s1) = messages (world s) /\
  selectedMessage (world s1) = Some hello /\
  exists k,
    pending s1 = pending s ++ [PendOne (UpdateIsRead (id hello)) k] /\
    (forall (r : Response) (s' : Sys),
        let s2 := exec (k (Fulfilled r)) s' in
        messages (world s2) = mark_read (id hello) (messages (world s')) /\
        requests s2 = requests s' /\
        pending s2 = pending s' /\
        unhandled s2 = unhandled s') /\
    (forall (e : Error) (s' : Sys),
        let s2 := exec (k (Rejected e)) s' in
        world s2 = world s' /\
        unhandled s2 = unhandled s' ++ [e]).
Proof.
  split; [reflexivity|]. split; [reflexivity|].
  apply (open_unread_patches_after_update alice hello (ready [hello]));
    reflexivity.
Defined.

(** An error result does not stop the patch. *)
Example patch_after_error_result :
  option_map (fun s2 => map is_read (messages (world s2)))
    (deliver 0
       (One (Fulfilled {| data := None; error := Some "42501" |}))
       (exec (handleOpenMessage (Some alice) hello) (ready [hello])))
  = Some [true].
Proof. reflexivity. Qed.

(** C8: opening a message issues a read-state update if and only if the
    message is unread and its recipientId equals the current user; an
    already-read message issues none, and neither does a message the
    current user sent to someone else.  The continuation of the update
    issues no further call. *)
Theorem open_updates_iff_unread_and_addressed :
  forall (user : option User.t) (m : Message) (s : Sys),
    let s1 := exec (handleOpenMessage user m) s in
    (requests s1 = requests s ++ [UpdateIsRead (id m)] \/
     requests s1 = requests s /\ pending s1 = pending s) /\
    (requests s1 = requests s ++ [UpdateIsRead (id m)] <->
     is_read m = false /\
     exists u, user = Some u /\ recipient_id m = Some (User.id u)) /\
    (is_read m = true ->
     requests s1 = requests s /\ pending s1 = pending s) /\
    (forall u, user = Some u -> sender_id m = User.id u ->
               recipient_id m <> Some (User.id u) ->
               requests s1 = requests s /\ pending s1 = pending s).
Proof.
  intros user m s. unfold handleOpenMessage.
  assert (Hc : negb (is_read m) && addressed_to user m = true <->
               is_read m = false /\
               exists u, user = Some u /\ recipient_id m = Some (User.id u)).
  { rewrite andb_true_iff, negb_true_iff, addressed_to_iff. reflexivity. }
  destruct (negb (is_read m) && addressed_to user m) eqn:E; simpl.
  - destruct Hc as [Hc _]. destruct (Hc eq_refl) as (Hread & u0 & Hu0 & Hr0).
    split; [now left|]. split; [|split].
    + split; [intros _; split; [exact Hread|now exists u0]|reflexivity].
    + intros H. congruence.
    + intros u Hu _ Hr. congruence.
  - split; [now right|]. split; [|split].
    + split.
      * intros H. symmetry in H. now apply app_one_neq in H.
      * intros H. apply Hc in H. discriminate H.
    + intros _. now split.
    + intros u _ _ _. now split.
Qed.

(** *** The sent and received partitions *)

(** C4, as stated, fails: a message the current user sent to herself is
    in both partitions. *)
Lemma self_addressed_in_both :
  In note_to_self (sentMessages (Some alice) (world (ready [note_to_self; hello]))) /\
  In note_to_self (receivedMessages (Some alice) (world (ready [note_to_self; hello]))) /\
  sender_id note_to_self = "alice" /\
  recipient_id note_to_self = Some "alice".
Proof. simpl. auto. Qed.

(** C4 (amended): for every in-memory list and every fixed current
    user, a message is in both the sent and the received partition
    exactly when it is in the list and its senderId and its recipientId
    both equal the current user; so the two partitions are disjoint if
    and only if the list holds no such self-addressed message. *)
Theorem partitions_share_only_self_addressed :
  forall (user : option User.t) (w : State),
    (forall m,
        In m (sentMessages user w) /\ In m (receivedMessages user w) <->
        In m (messages w) /\
        exists u, user = Some u /\ sender_id m = User.id u /\
                  recipient_id m = Some (User.id u)) /\
    ((forall m, In m (sentMessages user w) ->
                In m (receivedMessages user w) -> False) <->
     (forall m u, In m (messages w) -> user = Some u ->
                  sender_id m = User.id u ->
                  recipient_id m = Some (User.id u) -> False)).
Proof.
  intros user w.
  assert (Hboth : forall m,
             In m (sentMessages user w) /\ In m (receivedMessages user w) <->
             In m (messages w) /\
             exists u, user = Some u /\ sender_id m = User.id u /\
                       recipient_id m = Some (User.id u)).
  { intros m. unfold sentMessages, receivedMessages.
    rewrite !filter_In, sent_by_iff, addressed_to_iff. split.
    - intros [[Hin (u & Hu & Hs)] [_ (u' & Hu' & Hr)]].
      split; [exact Hin|]. exists u. repeat split; try assumption.
      congruence.
    - intros [Hin (u & Hu & Hs & Hr)].
      split; (split; [exact Hin|]); exists u; now split. }
  split; [exact Hboth|]. split.
  - intros Hdisj m u Hin Hu Hs Hr.
    destruct (Hboth m) as [_ H].
    destruct H as [H1 H2]; [split; [exact Hin|now exists u]|].
    exact (Hdisj m H1 H2).
  - intros Hnone m H1 H2.
    destruct (Hboth m) as [H _].
    destruct (H (conj H1 H2)) as [Hin (u & Hu & Hs & Hr)].
    exact (Hnone m u Hin Hu Hs Hr).
Qed.

(** Without a signed-in user both partitions are empty. *)
Lemma partitions_without_user (w : State) :
  sentMessages None w = [] /\ receivedMessages None w = [].
Proof.
  unfold sentMessages, receivedMessages. split.
  - induction (messages w) as [|m l IH]; simpl; auto.
  - induction (messages w) as [|m l IH]; simpl; [reflexivity|].
    unfold addressed_to at 1. now destruct (recipient_id m).
Qed.

(** *** The mark-read patch *)

(** C10: the mark-read patch keeps the length and the order of the
    list; at every position the entry keeps every field but is_read;
    an entry whose id is not the opened message's is unchanged, and an
    entry whose id is the opened message's has is_read = true. *)
Theorem mark_read_frame :
  forall (opened : string) (prev : list Message),
    List.length (mark_read opened prev) = List.length prev /\
    forall (n : nat) (m : Message),
      nth_error prev n = Some m ->
      exists m',
        nth_error (mark_read opened prev) n = Some m' /\
        id m' = id m /\
        subject m' = subject m /\
        content m' = content m /\
        is_admin_message m' = is_admin_message m /\
        created_at m' = created_at m /\
        sender_id m' = sender_id m /\
        recipient_id m' = recipient_id m /\
        (id m <> opened -> m' = m) /\
        (id m = opened -> is_read m' = true).
Proof.
  intros opened prev. split; [apply length_map|].
  intros n m Hn. unfold mark_read. rewrite nth_error_map, Hn. simpl.
  eexists. split; [reflexivity|].
  destruct (String.eqb (id m) opened) eqn:E.
  - apply String.eqb_eq in E. repeat split; try reflexivity.
    intros H. contradiction.
  - apply String.eqb_neq in E. repeat split; try reflexivity.
    intros H. contradiction.
Qed.

(** The patch touches no other cell of the component. *)
Lemma mark_read_patch_state (opened : string) (w : State) :
  setMessages (mark_read opened) w =
  {| messages := mark_read opened (messages w); admins := admins w;
     isLoading := isLoading w; isSending := isSending w;
     newMessageOpen := newMessageOpen w;
     selectedMessage := selectedMessage w; messageForm := messageForm w;
     toasts := toasts w; console := console w; navigated := navigated w;
     channels := channels w; next_channel := next_channel w |}.
Proof. reflexivity. Qed.

(** *** The list operation *)

(** The list operation is started from the mount effect and from send,
    in both under the guard of a signed-in user; without one it returns
    at once and neither of the two sends anything. *)
Lemma list_needs_signed_in_user (authLoading : bool) (form : Form.t)
      (admins : list AdminUser.t) (s : Sys) :
  exec (fetchMessages None) s = s /\
  requests (fst (effect authLoading None s)) = requests s /\
  requests (exec (handleSendMessage None form admins) s) = requests s.
Proof. destruct authLoading; repeat split. Qed.

(** C9: for every invocation of the list operation by a signed-in user,
    exactly one query is sent; whatever its outcome the loading flag is
    cleared; and when the query fails (an error result or a rejected
    promise) the failure is logged to the console, no toast is shown,
    nothing is left unhandled, and the in-memory list is the one that
    was there. *)
Theorem fetchMessages_fails_silently :
  forall (u : User.t) (s : Sys),
    let s1 := exec (fetchMessages (Some u)) s in
    requests s1 = requests s ++ [SelectMessages (User.id u)] /\
    world s1 = world s /\
    exists k,
      pending s1 = pending s ++ [PendOne (SelectMessages (User.id u)) k] /\
      forall (o : Settled Response) (s' : Sys),
        let s2 := exec (k o) s' in
        isLoading (world s2) = false /\
        requests s2 = requests s' /\
        pending s2 = pending s' /\
        unhandled s2 = unhandled s' /\
        (failed o = true ->
         messages (world s2) = messages (world s') /\
         console (world s2) = console (world s') ++ ["Error fetching messages:"] /\
         toasts (world s2) = toasts (world s')) /\
        (failed o = false ->
         exists r, o = Fulfilled r /\
                   messages (world s2) = or_empty (message_rows r) /\
                   console (world s2) = console (world s')).
Proof.
  intros u s. simpl. repeat split. eexists. split; [reflexivity|].
  intros o s'. destruct o as [r|e]; simpl.
  - destruct (error r) eqn:E; simpl; repeat split; try discriminate.
    intros _. exists r. repeat split.
  - repeat split. discriminate.
Qed.

(** The list is replaced by the rows of a successful response. *)
Example fetch_success_replaces_list :
  option_map (fun s => (messages (world s), isLoading (world s)))
    (deliver 0 (One (rows_ok [question; hello]))
       (exec (fetchMessages (Some alice)) (boot (initial false))))
  = Some ([question; hello], false).
Proof. reflexivity. Qed.

(** An error keeps the prior list. *)
Example fetch_error_keeps_list :
  option_map (fun s => (messages (world s), isLoading (world s), console (world s)))
    (deliver 0 (One (Fulfilled {| data := None; error := Some "PGRST301" |}))
       (exec (fetchMessages (Some alice)) (ready [hello])))
  = Some ([hello], false, ["Error fetching messages:"]).
Proof. reflexivity. Qed.

(** *** Order of the list *)

Lemma sorted_desc_cons (m : Message) (l : list Message) :
  sorted_desc (m :: l) =
  match l with
  | [] => true
  | h :: _ => newer_or_same m h
  end && sorted_desc l.
Proof. destruct l as [|h t]; reflexivity. Qed.

Lemma sorted_desc_map (f : Message -> Message) (l : list Message) :
  (forall m, created_at (f m) = created_at m) ->
  sorted_desc (map f l) = sorted_desc l.
Proof.
  intros Hf. induction l as [|m l IH]; [reflexivity|].
  change (map f (m :: l)) with (f m :: map f l).
  rewrite !sorted_desc_cons, IH. f_equal.
  destruct l as [|h t]; [reflexivity|].
  simpl. unfold newer_or_same. now rewrite !Hf.
Qed.

Lemma sorted_desc_mark_read (opened : string) (l : list Message) :
  sorted_desc (mark_read opened l) = sorted_desc l.
Proof.
  apply sorted_desc_map. intros m.
  now destruct (String.eqb (id m) opened).
Qed.

(** C5, as stated, fails: the initial fetch returns alice's two
    messages newest first; the realtime feed then delivers the older of
    the two, the row addressed to her, and the handler puts it in front
    of the newer one. *)
Lemma late_push_breaks_order :
  exists s2,
    deliver 0 (One (rows_ok [question; hello]))
      (fst (activate false (Some alice) (boot (initial false)))) = Some s2 /\
    sorted_desc (messages (world s2)) = true /\
    messages (world (realtime hello s2)) = [hello; question; hello] /\
    sorted_desc (messages (world (realtime hello s2))) = false.
Proof. eexists. repeat split. Qed.

(** C5 (amended): after a successful full fetch the in-memory list is
    the response's rows, so it is sorted by createdAt descending exactly
    when the backend returned them in the order requested; a realtime
    ingestion prepends the delivered row, and the list is sorted after
    it exactly when it was sorted before and the delivered row is at
    least as new as its first entry; the mark-read patch keeps the
    order. *)
Theorem list_order_by_operation :
  (forall (u : User.t) (s : Sys),
      exists k,
        pending (exec (fetchMessages (Some u)) s)
        = pending s ++ [PendOne (SelectMessages (User.id u)) k] /\
        forall (rows : list Message) (s' : Sys),
          messages (world (exec (k (rows_ok rows)) s')) = rows /\
          sorted_desc (messages (world (exec (k (rows_ok rows)) s')))
          = sorted_desc rows) /\
  (forall (newMessage : Message) (w : State),
      messages (onInsert newMessage w) = newMessage :: messages w /\
      sorted_desc (messages (onInsert newMessage w))
      = match messages w with
        | [] => true
        | first :: _ => newer_or_same newMessage first
        end && sorted_desc (messages w)) /\
  (forall (opened : string) (w : State),
      sorted_desc (messages (setMessages (mark_read opened) w))
      = sorted_desc (messages w)).
Proof.
  split; [|split].
  - intros u s. eexists. split; [reflexivity|].
    intros rows s'. split; reflexivity.
  - intros m w. split; [reflexivity|]. simpl messages.
    apply sorted_desc_cons.
  - intros opened w. simpl messages. apply sorted_desc_mark_read.
Qed.

(** *** Compose and send *)

Lemma is_empty_false (x : string) : x <> "" -> is_empty x = false.
Proof. intros H. now apply String.eqb_neq. Qed.

Lemma first_admin_or_null_spec (l : list AdminUser.t) :
  (l = [] -> first_admin_or_null l = None) /\
  (forall a rest, l = a :: rest -> AdminUser.id a <> "" ->
                  first_admin_or_null l = Some (AdminUser.id a)).
Proof.
  split; [now intros ->|].
  intros a rest -> Ha. simpl. now rewrite (proj2 (String.eqb_neq _ _) Ha).
Qed.

(** C7: when the subject is empty, or the content is empty, or nobody
    is signed in, send issues no request and parks nothing; all it does
    is show the validation error. *)
Theorem send_invalid_is_local :
  forall (user : option User.t) (form : Form.t) (admins : list AdminUser.t)
         (s : Sys),
    user = None \/ Form.subject form = "" \/ Form.content form = "" ->
    let s1 := exec (handleSendMessage user form admins) s in
    requests s1 = requests s /\
    pending s1 = pending s /\
    unhandled s1 = unhandled s /\
    world s1 = toast (ToastError "Preencha todos os campos") (world s) /\
    toasts (world s1) = toasts (world s) ++ [ToastError "Preencha todos os campos"].
Proof.
  intros user form admins s H. unfold handleSendMessage.
  assert (E : match user with
              | Some _ => is_empty (Form.subject form) || is_empty (Form.content form)
              | None => true
              end = true).
  { destruct H as [-> | [H | H]]; [reflexivity| |];
      destruct user; try reflexivity; rewrite H; simpl;
      [reflexivity | apply orb_true_r]. }
  destruct user as [u|]; [rewrite E|]; simpl; repeat split.
Qed.

(** The theorem at a form with a subject and no content. *)
Lemma send_invalid_is_local_witness :
  (Some alice = None \/
   Form.subject {| Form.subject := "Horário"; Form.content := "" |} = "" \/
   Form.content {| Form.subject := "Horário"; Form.content := "" |} = "") /\
  let s := ready [hello] in
  let s1 := exec (handleSendMessage (Some alice)
                    {| Form.subject := "Horário"; Form.content := "" |}
                    [root_admin]) s in
  requests s1 = requests s /\
  pending s1 = pending s /\
  unhandled s1 = unhandled s /\
  world s1 = toast (ToastError "Preencha todos os campos") (world s) /\
  toasts (world s1) = toasts (world s) ++ [ToastError "Preencha todos os campos"].
Proof.
  split; [right; right; reflexivity|].
  apply (send_invalid_is_local (Some alice)
           {| Form.subject := "Horário"; Form.content := "" |}
           [root_admin] (ready [hello])).
  right; right; reflexivity.
Defined.

(** C6: for every valid compose input (non-empty subject, non-empty
    content, a signed-in user) send issues exactly one request, the
    insert of a row with senderId the current user, isAdminMessage
    false, and recipientId [admins[0]?.id || null]: absent when the
    admin list is empty, the first admin's id otherwise (an identifier
    is never the empty string).  When the insert succeeds the dialog is
    closed, the form is cleared, a success toast is shown and a full
    re-list is started, the list itself being left as it is; when it
    fails (an error result or a rejected promise) an error toast is
    shown, no further request is made, and the dialog flag, the form and
    the list are left as they are. *)
Theorem send_valid_inserts_once :
  forall (u : User.t) (form : Form.t) (admins : list AdminUser.t) (s : Sys),
    Form.subject form <> "" ->
    Form.content form <> "" ->
    let row :=
      {| NewRow.sender_id := User.id u;
         NewRow.recipient_id := first_admin_or_null admins;
         NewRow.subject := Form.subject form;
         NewRow.content := Form.content form;
         NewRow.is_admin_message := false |} in
    let s1 := exec (handleSendMessage (Some u) form admins) s in
    (admins = [] -> NewRow.recipient_id row = None) /\
    (forall a rest, admins = a :: rest -> AdminUser.id a <> "" ->
                    NewRow.recipient_id row = Some (AdminUser.id a)) /\
    requests s1 = requests s ++ [InsertMessage row] /\
    world s1 = setIsSending true (world s) /\
    exists k,
      pending s1 = pending s ++ [PendOne (InsertMessage row) k] /\
      (forall (r : Response) (s' : Sys),
          error r = None ->
          let s2 := exec (k (Fulfilled r)) s' in
          newMessageOpen (world s2) = false /\
          messageForm (world s2) = Form.empty /\
          toasts (world s2) = toasts (world s') ++ [ToastSuccess "Mensagem enviada!"] /\
          messages (world s2) = messages (world s') /\
          requests s2 = requests s' ++ [SelectMessages (User.id u)] /\
          isSending (world s2) = false /\
          exists k',
            pending s2 = pending s' ++ [PendOne (SelectMessages (User.id u)) k'] /\
            forall (rows : list Message) (s'' : Sys),
              messages (world (exec (k' (rows_ok rows)) s'')) = rows) /\
      (forall (o : Settled Response) (s' : Sys),
          failed o = true ->
          let s2 := exec (k o) s' in
          toasts (world s2) = toasts (world s') ++ [ToastError "Erro ao enviar mensagem"] /\
          console (world s2) = console (world s') ++ ["Error sending message:"] /\
          newMessageOpen (world s2) = newMessageOpen (world s') /\
          messageForm (world s2) = messageForm (world s') /\
          messages (world s2) = messages (world s') /\
          requests s2 = requests s' /\
          pending s2 = pending s' /\
          unhandled s2 = unhandled s' /\
          isSending (world s2) = false).
Proof.
  intros u form admins s Hsubj Hcont row s1.
  destruct (first_admin_or_null_spec admins) as [Hnil Hcons].
  split; [exact Hnil|]. split; [exact Hcons|].
  subst s1 row. unfold handleSendMessage.
  rewrite (is_empty_false _ Hsubj), (is_empty_false _ Hcont). simpl.
  split; [reflexivity|]. split; [reflexivity|].
  eexists. split; [reflexivity|]. split.
  - intros r s' Hr. simpl. rewrite Hr. simpl.
    repeat split. eexists. split; [reflexivity|].
    intros rows s''. reflexivity.
  - intros o s' Ho. destruct o as [r|e]; simpl in *.
    + destruct (error r); [|discriminate]. simpl. repeat split.
    + repeat split.
Qed.

(** The theorem at alice sending [reschedule] with one admin listed. *)
Lemma send_valid_inserts_once_witness :
  Form.subject reschedule <> "" /\
  Form.content reschedule <> "" /\
  let u := alice in
  let form := reschedule in
  let admins := [root_admin] in
  let s := ready [hello] in
  let row :=
    {| NewRow.sender_id := User.id u;
       NewRow.recipient_id := first_admin_or_null admins;
       NewRow.subject := Form.subject form;
       NewRow.content := Form.content form;
       NewRow.is_admin_message := false |} in
  let s1 := exec (handleSendMessage (Some u) form admins) s in
  (admins = [] -> NewRow.recipient_id row = None) /\
  (forall a rest, admins = a :: rest -> AdminUser.id a <> "" ->
                  NewRow.recipient_id row = Some (AdminUser.id a)) /\
  requests s1 = requests s ++ [InsertMessage row] /\
  world s1 = setIsSending true (world s) /\
  exists k,
    pending s1 = pending s ++ [PendOne (InsertMessage row) k] /\
    (forall (r : Response) (s' : Sys),
        error r = None ->
        let s2 := exec (k (Fulfilled r)) s' in
        newMessageOpen (world s2) = false /\
        messageForm (world s2) = Form.empty /\
        toasts (world s2) = toasts (world s') ++ [ToastSuccess "Mensagem enviada!"] /\
        messages (world s2) = messages (world s') /\
        requests s2 = requests s' ++ [SelectMessages (User.id u)] /\
        isSending (world s2) = false /\
        exists k',
          pending s2 = pending s' ++ [PendOne (SelectMessages (User.id u)) k'] /\
          forall (rows : list Message) (s'' : Sys),
            messages (world (exec (k' (rows_ok rows)) s'')) = rows) /\
    (forall (o : Settled Response) (s' : Sys),
        failed o = true ->
        let s2 := exec (k o) s' in
        toasts (world s2) = toasts (world s') ++ [ToastError "Erro ao enviar mensagem"] /\
        console (world s2) = console (world s') ++ ["Error sending message:"] /\
        newMessageOpen (world s2) = newMessageOpen (world s') /\
        messageForm (world s2) = messageForm (world s') /\
        messages (world s2) = messages (world s') /\
        requests s2 = requests s' /\
        pending s2 = pending s' /\
        unhandled s2 = unhandled s' /\
        isSending (world s2) = false).
Proof.
  split; [discriminate|]. split; [discriminate|].
  apply (send_valid_inserts_once alice reschedule [root_admin] (ready [hello]));
    discriminate.
Defined.

(** The scenario of the specification: alice sends "Horário" while the
    admin list is empty.  The inserted row has no recipient; once the
    re-list has returned it, the message is in [sent] and not in
    [received]. *)
Example send_with_no_admin :
  let s0 := boot (setNewMessageOpen true
                    (setMessageForm reschedule
                       (setIsLoading false (initial false)))) in
  let s1 := exec (handleSendMessage (Some alice) reschedule []) s0 in
  let stored :=
    {| id := "m9"; subject := "Horário"; content := "Posso remarcar?";
       is_read := false; is_admin_message := false;
       created_at := "2026-03-04T11:00:00+00:00";
       sender_id := "alice"; recipient_id := None |} in
  requests s1 =
    [InsertMessage {| NewRow.sender_id := "alice";
                      NewRow.recipient_id := None;
                      NewRow.subject := "Horário";
                      NewRow.content := "Posso remarcar?";
                      NewRow.is_admin_message := false |}] /\
  exists s2 s3,
    deliver 0 (One (Fulfilled {| data := None; error := None |})) s1 = Some s2 /\
    newMessageOpen (world s2) = false /\
    messages (world s2) = [] /\
    requests s2 = requests s1 ++ [SelectMessages "alice"] /\
    deliver 0 (One (rows_ok [stored])) s2 = Some s3 /\
    sentMessages (Some alice) (world s3) = [stored] /\
    receivedMessages (Some alice) (world s3) = [].
Proof. simpl. split; [reflexivity|]. eexists. eexists. repeat split. Qed.

(** A failed insert leaves the dialog open and the text in place. *)
Example send_failure_keeps_dialog :
  let s0 := boot (setNewMessageOpen true
                    (setMessageForm reschedule
                       (setIsLoading false (initial false)))) in
  option_map
    (fun s => (newMessageOpen (world s), messageForm (world s),
               toasts (world s), isSending (world s), requests s))
    (deliver 0 (One (Rejected "network"))
       (exec (handleSendMessage (Some alice) reschedule [root_admin]) s0))
  = Some (true, reschedule, [ToastError "Erro ao enviar mensagem"], false,
          [InsertMessage {| NewRow.sender_id := "alice";
                            NewRow.recipient_id := Some "root";
                            NewRow.subject := "Horário";
                            NewRow.content := "Posso remarcar?";
                            NewRow.is_admin_message := false |}]).
Proof. reflexivity. Qed.

(** The realtime scenario of the specification: a pushed unread row
    addressed to alice raises her unread badge by one, with no
    re-list. *)
Example push_raises_badge :
  let s := fst (activate false (Some alice) (boot (initial false))) in
  unread_badge (Some alice) (world s) = 0 /\
  unread_badge (Some alice) (world (realtime hello s)) = 1 /\
  requests (realtime hello s) = requests s.
Proof. repeat split. Qed.

End MessagesFacts.

(* ================================================================== *)
(** ** The dashboard, beyond the rejected query *)
(* ================================================================== *)

Module DashboardLifecycle.

Import Dashboard DashboardScenarios AsyncFacts.

Lemma fulfilled_six (os : list (Settled Result)) :
  List.length os = 6 ->
  existsb is_rejected os = false ->
  exists a b c d e f, os = map Fulfilled [a; b; c; d; e; f].
Proof.
  intros Hlen Hrej.
  destruct (promise_all_fulfilled os Hrej) as (xs & _ & Hmap).
  subst os. rewrite length_map in Hlen.
  do 6 (destruct xs as [|? xs]; [discriminate|]).
  destruct xs; [|discriminate].
  now repeat eexists.
Qed.

(** However the six queries settle, the dashboard sends nothing beyond
    them (no retry), leaves nothing parked or unhandled and clears the
    loading flag, so the spinner goes away; the snapshot is missing
    exactly when one of the promises rejected, and that is also exactly
    when something is logged. *)
Theorem settled_queries_end_loading :
  forall (now : string) (os : list (Settled Result)),
    List.length os = 6 ->
    exists s',
      settle os (activate now) = Some s' /\
      isLoading (world s') = false /\
      render (world s') = Page (data (world s')) /\
      requests s' = queries now /\
      pending s' = [] /\
      unhandled s' = [] /\
      (data (world s') = None <-> existsb is_rejected os = true) /\
      (console (world s') = [] <-> existsb is_rejected os = false).
Proof.
  intros now os Hlen.
  destruct (existsb is_rejected os) eqn:Hrej.
  - destruct (promise_all_rejected os Hrej) as [e He].
    unfold settle, deliver, activate. simpl.
    rewrite Hlen. simpl. rewrite He. simpl.
    eexists. repeat split; try discriminate; auto.
  - destruct (fulfilled_six os Hlen Hrej) as (a & b & c & d & e & f & ->).
    eexists. repeat split; try discriminate; auto.
Qed.

(** The theorem at the scenario in which the active count rejects. *)
Lemma settled_queries_end_loading_witness :
  List.length active_count_rejects = 6 /\
  exists s',
    settle active_count_rejects (activate "2026-01-01T00:00:00.000Z") = Some s' /\
    isLoading (world s') = false /\
    render (world s') = Page (data (world s')) /\
    requests s' = queries "2026-01-01T00:00:00.000Z" /\
    pending s' = [] /\
    unhandled s' = [] /\
    (data (world s') = None <-> existsb is_rejected active_count_rejects = true) /\
    (console (world s') = [] <-> existsb is_rejected active_count_rejects = false).
Proof.
  split; [reflexivity|].
  apply (settled_queries_end_loading
           "2026-01-01T00:00:00.000Z" active_count_rejects).
  reflexivity.
Defined.

(** When the six queries are fulfilled the page shows a snapshot built
    from the four counts and the two row lists in the order of the
    array; a missing count reads 0 and missing rows read as no rows; the
    [error] of a result is not looked at, and nothing is logged. *)
Theorem fulfilled_queries_publish_with_defaults :
  forall (now : string) (a b c d e f : Result),
    exists s' snapshot,
      settle (map Fulfilled [a; b; c; d; e; f]) (activate now) = Some s' /\
      render (world s') = Page (Some snapshot) /\
      console (world s') = [] /\
      artistsCount snapshot
      = match count a with Some n => n | None => 0 end /\
      bookingsCount snapshot
      = match count b with Some n => n | None => 0 end /\
      productionsCount snapshot
      = match count c with Some n => n | None => 0 end /\
      activeProductionsCount snapshot
      = match count d with Some n => n | None => 0 end /\
      recentProductions snapshot
      = match rows e with Some l => l | None => [] end /\
      upcomingBookings snapshot
      = match rows f with Some l => l | None => [] end.
Proof. intros. eexists. eexists. repeat split. Qed.

End DashboardLifecycle.

(* ================================================================== *)
(** ** The inbox, beyond the listed operations *)
(* ================================================================== *)

Module InboxBehaviour.

Import Messages MessagesScenarios MessagesFacts.

(** *** Activation *)

(** Without a signed-in user the mount effect sends nothing and
    subscribes nothing; it redirects to the login page once the session
    is known to be absent, and not while it is still loading.  The
    loading flag is left alone, so the screen goes on showing the
    spinner. *)
Theorem mount_without_user :
  forall (authLoading : bool) (s : Sys),
    let s1 := fst (activate authLoading None s) in
    requests s1 = requests s /\
    pending s1 = pending s /\
    channels (world s1) = channels (world s) /\
    messages (world s1) = messages (world s) /\
    isLoading (world s1) = isLoading (world s) /\
    shows_spinner authLoading (world s1)
    = shows_spinner authLoading (world s) /\
    navigated (world s1)
    = navigated (world s) ++ (if authLoading then [] else ["/login"]).
Proof.
  intros authLoading s. destruct authLoading; simpl; repeat split;
    now rewrite ?app_nil_r.
Qed.

(** With a signed-in user the mount effect sends the messages query and
    then the admin-role query, in that order and nothing else, opens
    one channel on "member-messages-page" filtered on the user's id, and
    neither redirects nor touches a state cell, whatever [authLoading]
    is. *)
Theorem mount_with_user :
  forall (authLoading : bool) (u : User.t) (s : Sys),
    let s1 := fst (activate authLoading (Some u) s) in
    requests s1
    = requests s ++ [SelectMessages (User.id u); SelectAdminRoles] /\
    List.length (pending s1) = 2 + List.length (pending s) /\
    channels (world s1)
    = channels (world s) ++
      [{| channel_id := next_channel (world s);
          topic := "member-messages-page";
          recipient := User.id u |}] /\
    navigated (world s1) = navigated (world s) /\
    messages (world s1) = messages (world s) /\
    admins (world s1) = admins (world s) /\
    isLoading (world s1) = isLoading (world s) /\
    toasts (world s1) = toasts (world s).
Proof.
  intros authLoading u s. simpl. rewrite <- !app_assoc. simpl.
  repeat split. rewrite !length_app. simpl. lia.
Qed.

(** From the initial state the spinner of a signed-in user ends with the
    messages query and with nothing else: whatever that query's outcome,
    the spinner is then shown only while the session itself is loading;
    the outcome of the admin-role query, arriving first, leaves it
    on. *)
Theorem spinner_ends_with_messages_query :
  forall (authLoading open_new : bool) (u : User.t) (o : Settled Response),
    let s1 := fst (activate authLoading (Some u) (boot (initial open_new))) in
    shows_spinner authLoading (world s1) = true /\
    (exists s2,
        deliver 0 (One o) s1 = Some s2 /\
        shows_spinner authLoading (world s2) = authLoading) /\
    (exists s2,
        deliver 1 (One o) s1 = Some s2 /\
        shows_spinner authLoading (world s2) = true).
Proof.
  intros authLoading open_new u o. simpl. split; [|split].
  - now destruct authLoading.
  - unfold deliver. simpl. eexists. split; [reflexivity|].
    destruct o as [r|e]; simpl; [destruct (error r)|];
      simpl; now destruct authLoading.
  - unfold deliver. simpl. eexists. split; [reflexivity|].
    destruct o as [r|e]; simpl.
    + destruct (role_rows r) as [[|x rest]|]; simpl; now destruct authLoading.
    + now destruct authLoading.
Qed.

(** *** The admin directory *)

(** [fetchAdmins] sends the role query and parks.  If that promise
    rejects, the failure is logged and the admin list is kept.  If it
    resolves with no role row (no data, or an empty array), nothing
    happens at all: no second query, no log, the admin list kept.  If it
    resolves with role rows, one profile query is sent for exactly their
    user ids, in order; when that one resolves the admin list becomes
    its rows, and the empty list when it carries none (as an error
    result does); when it rejects, the failure is logged and the list
    kept.  No step shows a toast or touches the messages. *)
Theorem fetchAdmins_two_steps :
  forall (s : Sys),
    let s1 := exec fetchAdmins s in
    requests s1 = requests s ++ [SelectAdminRoles] /\
    world s1 = world s /\
    exists k,
      pending s1 = pending s ++ [PendOne SelectAdminRoles k] /\
      (forall (e : Error) (s' : Sys),
          exec (k (Rejected e)) s'
          = MkSys (console_error "Error fetching admins:" (world s'))
                  (requests s') (pending s') (unhandled s')) /\
      (forall (r : Response) (s' : Sys),
          role_rows r = None \/ role_rows r = Some [] ->
          exec (k (Fulfilled r)) s' = s') /\
      (forall (r : Response) (x : UserRole.t) (rest : list UserRole.t)
              (s' : Sys),
          role_rows r = Some (x :: rest) ->
          let s2 := exec (k (Fulfilled r)) s' in
          let ids := map UserRole.user_id (x :: rest) in
          requests s2 = requests s' ++ [SelectProfiles ids] /\
          world s2 = world s' /\
          unhandled s2 = unhandled s' /\
          exists k2,
            pending s2 = pending s' ++ [PendOne (SelectProfiles ids) k2] /\
            (forall (r2 : Response) (s'' : Sys),
                exec (k2 (Fulfilled r2)) s''
                = MkSys (setAdmins (or_empty (profile_rows r2)) (world s''))
                        (requests s'') (pending s'') (unhandled s'')) /\
            (forall (r2 : Response) (s'' : Sys),
                data r2 = None ->
                admins (world (exec (k2 (Fulfilled r2)) s'')) = []) /\
            (forall (e : Error) (s'' : Sys),
                exec (k2 (Rejected e)) s''
                = MkSys (console_error "Error fetching admins:" (world s''))
                        (requests s'') (pending s'') (unhandled s''))).
Proof.
  intros s. simpl. split; [reflexivity|]. split; [now destruct s|].
  eexists. split; [reflexivity|]. split; [|split].
  - intros e s'. reflexivity.
  - intros r s' [H | H]; simpl; rewrite H; now destruct s'.
  - intros r x rest s' H. simpl. rewrite H. simpl.
    split; [reflexivity|]. split; [reflexivity|]. split; [reflexivity|].
    eexists. split; [reflexivity|]. split; [|split].
    + intros r2 s''. reflexivity.
    + intros r2 s'' Hd. simpl. unfold profile_rows. now rewrite Hd.
    + intros e s''. reflexivity.
Qed.

(** *** The realtime feed *)






(** One delivery, seen from the derived views: the row is put in front
    of the received partition when it is addressed to the user and in
    front of the sent partition when the user sent it, and the unread
    badge rises by one exactly when the row is addressed to the user and
    unread. *)
Theorem onInsert_in_views :
  forall (user : option User.t) (m : Message) (w : State),
    receivedMessages user (onInsert m w)
    = (if addressed_to user m then [m] else []) ++ receivedMessages user w /\
    sentMessages user (onInsert m w)
    = (if sent_by user m then [m] else []) ++ sentMessages user w /\
    unread_badge user (onInsert m w)
    = (if counts_as_unread user m then 1 else 0) + unread_badge user w.
Proof.
  intros user m w. unfold receivedMessages, sentMessages, unread_badge,
    receivedMessages, counts_as_unread. simpl.
  split; [|split].
  - now destruct (addressed_to user m).
  - now destruct (sent_by user m).
  - destruct (addressed_to user m); simpl; [|reflexivity].
    now destruct (is_read m).
Qed.

(** Ingestion never merges: the list grows by one entry, and a row that
    is already in the list is in it twice afterwards. *)
Theorem onInsert_never_merges :
  forall (m : Message) (w : State),
    List.length (messages (onInsert m w)) = S (List.length (messages w)) /\
    (In m (messages w) -> ~ NoDup (messages (onInsert m w))) /\
    (forall m', In m' (messages w) -> In m' (messages (onInsert m w))).
Proof.
  intros m w. simpl. split; [reflexivity|]. split.
  - intros Hin Hnd. inversion Hnd; contradiction.
  - intros m' H. now right.
Qed.

(** *** The read flag *)

Lemma mark_read_cons (opened : string) (m : Message) (l : list Message) :
  mark_read opened (m :: l)
  = (if String.eqb (id m) opened then with_is_read m else m)
      :: mark_read opened l.
Proof. reflexivity. Qed.

Lemma filter_map_length {A} (p : A -> bool) (f : A -> A) (l : list A) :
  (forall x, p (f x) = p x) ->
  List.length (filter p (map f l)) = List.length (filter p l).
Proof.
  intros H. induction l as [|x l IH]; [reflexivity|].
  simpl. rewrite H. destruct (p x); simpl; now rewrite IH.
Qed.

(** Applying the patch twice is applying it once, and two patches for
    two ids can be applied in either order: the outcome does not depend
    on the order in which the update calls return. *)
Theorem mark_read_idempotent_commutes :
  forall (i j : string) (l : list Message),
    mark_read i (mark_read i l) = mark_read i l /\
    mark_read i (mark_read j l) = mark_read j (mark_read i l).
Proof.
  intros i j l. unfold mark_read. rewrite !map_map. split.
  - apply map_ext. intros m.
    destruct (String.eqb (id m) i) eqn:E; simpl; now rewrite E.
  - apply map_ext. intros m.
    destruct (String.eqb (id m) i) eqn:Ei, (String.eqb (id m) j) eqn:Ej;
      simpl; now rewrite ?Ei, ?Ej.
Qed.

Lemma mark_read_sets_opened (opened : string) (l : list Message)
      (m' : Message) :
  In m' (mark_read opened l) -> id m' = opened -> is_read m' = true.
Proof.
  intros Hin Hid. unfold mark_read in Hin. apply in_map_iff in Hin.
  destruct Hin as (m & Hm & _).
  destruct (String.eqb (id m) opened) eqn:E; subst m'; [reflexivity|].
  apply String.eqb_neq in E. contradiction.
Qed.

(** The patch only ever sets the flag: an entry that was read stays
    read at its position; afterwards every entry with the opened id is
    read, duplicates included; an entry with another id is unread
    afterwards exactly when it was before. *)
Theorem mark_read_only_sets :
  forall (opened : string) (l : list Message),
    (forall n m, nth_error l n = Some m -> is_read m = true ->
                 exists m', nth_error (mark_read opened l) n = Some m' /\
                            is_read m' = true) /\
    (forall m', In m' (mark_read opened l) -> id m' = opened ->
                is_read m' = true) /\
    (forall m', id m' <> opened ->
                (In m' (mark_read opened l) <-> In m' l)).
Proof.
  intros opened l. split; [|split].
  - intros n m Hn Hr. unfold mark_read. rewrite nth_error_map, Hn. simpl.
    eexists. split; [reflexivity|].
    now destruct (String.eqb (id m) opened).
  - apply mark_read_sets_opened.
  - intros m' Hid. unfold mark_read. rewrite in_map_iff. split.
    + intros (m & Hm & Hin).
      destruct (String.eqb (id m) opened) eqn:E; subst m'; [|exact Hin].
      apply String.eqb_eq in E. simpl in Hid. contradiction.
    + intros Hin. exists m'. split; [|exact Hin].
      now rewrite (proj2 (String.eqb_neq _ _) Hid).
Qed.

(** The unread badge after the patch is the badge before it less the
    entries with the opened id that counted as unread; so the patch never
    raises the badge, and it leaves the size of the received and of the
    sent partition as they were. *)
Theorem mark_read_lowers_badge :
  forall (user : option User.t) (opened : string) (w : State),
    let w' := setMessages (mark_read opened) w in
    unread_badge user w
    = unread_badge user w'
      + List.length
          (filter (fun m => String.eqb (id m) opened && counts_as_unread user m)
                  (messages w)) /\
    unread_badge user w' <= unread_badge user w /\
    List.length (receivedMessages user w')
    = List.length (receivedMessages user w) /\
    List.length (sentMessages user w') = List.length (sentMessages user w).
Proof.
  intros user opened w w'.
  assert (Ha : forall m, addressed_to user
                 (if String.eqb (id m) opened then with_is_read m else m)
               = addressed_to user m)
    by (intros m; now destruct (String.eqb (id m) opened)).
  assert (Hs : forall m, sent_by user
                 (if String.eqb (id m) opened then with_is_read m else m)
               = sent_by user m)
    by (intros m; now destruct (String.eqb (id m) opened)).
  assert (Hbadge :
            unread_badge user w
            = unread_badge user w'
              + List.length
                  (filter (fun m => String.eqb (id m) opened
                                    && counts_as_unread user m)
                          (messages w))).
  { subst w'. unfold unread_badge, receivedMessages, counts_as_unread.
    simpl messages.
    induction (messages w) as [|m l IH]; [reflexivity|].
    rewrite mark_read_cons. simpl filter. rewrite Ha.
    destruct (addressed_to user m); simpl;
      [|destruct (String.eqb (id m) opened); simpl; exact IH].
    destruct (String.eqb (id m) opened) eqn:E; simpl.
    - destruct (is_read m); simpl; [exact IH|]. rewrite IH. lia.
    - destruct (is_read m); simpl; [exact IH|]. now rewrite IH. }
  split; [exact Hbadge|]. split; [lia|]. subst w'.
  unfold receivedMessages, sentMessages. simpl messages. unfold mark_read.
  split; apply filter_map_length; assumption.
Qed.

(** Once the patch for a message has landed, clicking any list entry
    with that id sends no update and parks nothing, whoever the user
    is. *)
Theorem reopen_after_patch_is_local :
  forall (user : option User.t) (opened : string) (w : State)
         (m' : Message) (s : Sys),
    In m' (messages (setMessages (mark_read opened) w)) ->
    id m' = opened ->
    requests (click_message user m' s) = requests s /\
    pending (click_message user m' s) = pending s /\
    selectedMessage (world (click_message user m' s)) = Some m'.
Proof.
  intros user opened w m' s Hin Hid.
  unfold click_message, handleOpenMessage.
  rewrite (mark_read_sets_opened opened (messages w) m' Hin Hid).
  simpl. repeat split.
Qed.

(** The theorem for alice clicking [hello] again after its patch. *)
Lemma reopen_after_patch_is_local_witness :
  let w := world (ready [hello]) in
  let m' := with_is_read hello in
  In m' (messages (setMessages (mark_read "m1") w)) /\
  id m' = "m1" /\
  requests (click_message (Some alice) m' (ready [hello]))
  = requests (ready [hello]) /\
  pending (click_message (Some alice) m' (ready [hello]))
  = pending (ready [hello]) /\
  selectedMessage (world (click_message (Some alice) m' (ready [hello])))
  = Some m'.
Proof.
  split; [left; reflexivity|]. split; [reflexivity|].
  apply (reopen_after_patch_is_local (Some alice) "m1" (world (ready [hello]))
           (with_is_read hello) (ready [hello]));
    [left; reflexivity | reflexivity].
Defined.

(** The guard of [handleOpenMessage] reads the message it is handed, not
    the list: clicking the same unread entry again before its patch has
    landed sends a second update for the same id and parks a second
    patch. *)
Theorem second_click_sends_second_update :
  forall (u : User.t) (m : Message) (s : Sys),
    is_read m = false ->
    recipient_id m = Some (User.id u) ->
    let s2 := click_message (Some u) m (click_message (Some u) m s) in
    requests s2 = requests s ++ [UpdateIsRead (id m); UpdateIsRead (id m)] /\
    List.length (pending s2) = 2 + List.length (pending s) /\
    messages (world s2) = messages (world s).
Proof.
  intros u m s Hread Hrcpt. unfold click_message, handleOpenMessage.
  assert (Ha : addressed_to (Some u) m = true)
    by (apply addressed_to_iff; now exists u).
  rewrite Hread, Ha. simpl. rewrite <- !app_assoc. simpl.
  repeat split. rewrite !length_app. simpl. lia.
Qed.

(** The theorem for alice clicking [hello] twice. *)
Lemma second_click_sends_second_update_witness :
  is_read hello = false /\
  recipient_id hello = Some (User.id alice) /\
  let s := ready [hello] in
  let s2 := click_message (Some alice) hello (click_message (Some alice) hello s) in
  requests s2 = requests s ++ [UpdateIsRead (id hello); UpdateIsRead (id hello)] /\
  List.length (pending s2) = 2 + List.length (pending s) /\
  messages (world s2) = messages (world s).
Proof.
  split; [reflexivity|]. split; [reflexivity|].
  apply (second_click_sends_second_update alice hello (ready [hello]));
    reflexivity.
Defined.

(** *** Answers to parked calls *)

Lemma take_nth_last {A} (l : list A) (x : A) :
  Async.take_nth (List.length l) (l ++ [x]) = Some (x, l).
Proof.
  induction l as [|y l IH]; [reflexivity|]. simpl. now rewrite IH.
Qed.

Lemma deliver_last (s1 : Sys) (ps : list (Async.Pending State Request Response))
      (r : Request) (k : Settled Response -> Task) (o : Settled Response) :
  pending s1 = ps ++ [PendOne r k] ->
  deliver (List.length ps) (One o) s1 = Some (exec (k o) (set_pending ps s1)).
Proof.
  intros H. unfold deliver. now rewrite H, take_nth_last.
Qed.

(** Closing the detail dialog while the update is in flight cancels
    nothing: the request has been sent, and when it resolves the list is
    patched all the same, with the dialog staying closed. *)
Theorem close_does_not_cancel_patch :
  forall (u : User.t) (m : Message) (s : Sys) (r : Response),
    is_read m = false ->
    recipient_id m = Some (User.id u) ->
    let s1 := close_detail (click_message (Some u) m s) in
    detail_open (world (click_message (Some u) m s)) = true /\
    detail_open (world s1) = false /\
    requests s1 = requests s ++ [UpdateIsRead (id m)] /\
    exists s2,
      deliver (List.length (pending s)) (One (Fulfilled r)) s1 = Some s2 /\
      messages (world s2) = mark_read (id m) (messages (world s)) /\
      detail_open (world s2) = false /\
      requests s2 = requests s1 /\
      pending s2 = pending s.
Proof.
  intros u m s r Hread Hrcpt.
  assert (Ha : addressed_to (Some u) m = true)
    by (apply addressed_to_iff; now exists u).
  unfold close_detail, click_message, handleOpenMessage.
  rewrite Hread, Ha. simpl.
  split; [reflexivity|]. split; [reflexivity|]. split; [reflexivity|].
  eexists. split.
  - eapply deliver_last. reflexivity.
  - simpl. repeat split.
Qed.

(** The theorem for alice opening [hello] and closing the dialog. *)
Lemma close_does_not_cancel_patch_witness :
  is_read hello = false /\
  recipient_id hello = Some (User.id alice) /\
  let s := ready [hello] in
  let r := {| data := None; error := None |} in
  let s1 := close_detail (click_message (Some alice) hello s) in
  detail_open (world (click_message (Some alice) hello s)) = true /\
  detail_open (world s1) = false /\
  requests s1 = requests s ++ [UpdateIsRead (id hello)] /\
  exists s2,
    deliver (List.length (pending s)) (One (Fulfilled r)) s1 = Some s2 /\
    messages (world s2) = mark_read (id hello) (messages (world s)) /\
    detail_open (world s2) = false /\
    requests s2 = requests s1 /\
    pending s2 = pending s.
Proof.
  split; [reflexivity|]. split; [reflexivity|].
  apply (close_does_not_cancel_patch alice hello (ready [hello])
           {| data := None; error := None |});
    reflexivity.
Defined.

(** *** The channel *)

Lemma removeChannel_keeps_others (c c' : nat) (w : State) :
  c' <> c -> subscribed c' (removeChannel c w) = subscribed c' w.
Proof.
  intros Hne. unfold subscribed, removeChannel. simpl.
  induction (channels w) as [|x l IH]; [reflexivity|]. simpl.
  destruct (Nat.eqb (channel_id x) c) eqn:E; simpl.
  - apply Nat.eqb_eq in E.
    destruct (Nat.eqb (channel_id x) c') eqn:E'; [|exact IH].
    apply Nat.eqb_eq in E'. congruence.
  - now rewrite IH.
Qed.

(** What [setupRealtime] returns.  Without a user: nothing, and nothing
    is subscribed.  With one: a function that, on whatever state it is
    run, unsubscribes the channel [setupRealtime] has just made and no
    other, and changes no state cell. *)
Theorem setupRealtime_release_is_exact :
  forall (u : User.t) (w : State),
    setupRealtime None w = (w, None) /\
    exists release,
      snd (setupRealtime (Some u) w) = Some release /\
      forall (w' : State),
        subscribed (next_channel w) (release w') = false /\
        (forall c', c' <> next_channel w ->
                    subscribed c' (release w') = subscribed c' w') /\
        messages (release w') = messages w' /\
        admins (release w') = admins w' /\
        isLoading (release w') = isLoading w' /\
        toasts (release w') = toasts w' /\
        next_channel (release w') = next_channel w'.
Proof.
  intros u w. split; [reflexivity|]. eexists. split; [reflexivity|].
  intros w'. split; [apply removeChannel_releases|]. split.
  - intros c' Hne. now apply removeChannel_keeps_others.
  - repeat split.
Qed.

(** *** The recipient of a sent message *)

(** [admins[0]?.id || null] is absent exactly when the admin list is
    empty or its first admin's id is the empty string; it is never the
    empty string; and it depends on the first admin alone. *)
Theorem first_admin_or_null_cases :
  forall (l : list AdminUser.t),
    (first_admin_or_null l = None <->
     l = [] \/ exists a rest, l = a :: rest /\ AdminUser.id a = "") /\
    first_admin_or_null l <> Some "" /\
    (forall a rest rest',
        first_admin_or_null (a :: rest) = first_admin_or_null (a :: rest')) /\
    (forall x, first_admin_or_null l = Some x ->
               exists a rest, l = a :: rest /\ AdminUser.id a = x).
Proof.
  intros l. split; [|split; [|split]].
  - destruct l as [|a rest]; simpl.
    + split; [now left|reflexivity].
    + destruct (String.eqb (AdminUser.id a) "") eqn:E.
      * apply String.eqb_eq in E. split; [|reflexivity].
        intros _. right. now exists a, rest.
      * apply String.eqb_neq in E. split; [discriminate|].
        intros [H | (a' & rest' & H & Hid)]; [discriminate|].
        injection H as <- _. contradiction.
  - destruct l as [|a rest]; simpl; [discriminate|].
    destruct (String.eqb (AdminUser.id a) "") eqn:E; [discriminate|].
    apply String.eqb_neq in E. congruence.
  - reflexivity.
  - intros x. destruct l as [|a rest]; simpl; [discriminate|].
    destruct (String.eqb (AdminUser.id a) ""); [discriminate|].
    intros H. injection H as <-. now exists a, rest.
Qed.

(** *** Typing and sending *)







(** *** The list query against the feed *)




End InboxBehaviour.
